(** * mathgl: the dense matrix engine of matrix.go

    A shallow embedding of [matrix.go] (package [mathgl]) and the
    properties of its constructors, element setter, reductions to a
    vector or a scalar, element-wise arithmetic, multiplication and batch
    multiplication.

    Go values are modelled as the code has them:
    - [int] is a 64-bit two's complement integer: a [Z] wrapped by [wrap]
      after every arithmetic operation;
    - a slice is a [list]; indexing outside [0, len) panics;
    - a [*Matrix] is [ptr Matrix]: [nil] or the struct it points to (none of
      the pointers of this file is ever shared between two variables);
    - an interface value ([VecNum], [error]) is [None] for [nil] or [Some] of
      its dynamic value;
    - a run-time panic is the [Panic] outcome of the [result] monad. *)

From stdpp Require Import base decidable option list numbers strings.
From Stdlib Require Import ZArith Lia.
From Equations Require Import Equations.

Local Open Scope Z_scope.

(** ** Run-time panics and the result monad *)

Inductive panic : Type :=
| NilDereference      (* invalid memory address or nil pointer dereference *)
| NilInterfaceCall    (* method called on a nil interface value *)
| IndexOutOfRange     (* index out of range *)
| MakeSliceRange      (* makeslice: len or cap out of range *)
| TypeAssertion.      (* interface conversion failed *)

Inductive result (A : Type) : Type :=
| Ret (a : A)
| Panic (p : panic).
Arguments Ret {A} a.
Arguments Panic {A} p.

#[export] Instance result_ret : MRet result := @Ret.
#[export] Instance result_bind : MBind result := fun A B f r =>
  match r with
  | Ret a => f a
  | Panic p => Panic p
  end.

Definition panics {A} (r : result A) : Prop := exists p, r = Panic p.

(** ** Go's [int] *)

(** The width of [int] on 64-bit targets. *)
Definition int_bits : Z := 64.
Definition min_int : Z := - 2 ^ (int_bits - 1).
Definition max_int : Z := 2 ^ (int_bits - 1) - 1.

(** The value of a mathematical integer after it is stored in an [int]. *)
Definition wrap (z : Z) : Z := (z - min_int) mod 2 ^ int_bits + min_int.

Definition iadd (a b : Z) : Z := wrap (a + b).
Definition imul (a b : Z) : Z := wrap (a * b).

(** ** Slices *)

(** [len(s)] *)
Definition len {A} (s : list A) : Z := Z.of_nat (length s).

(** [s[i]] read. *)
Definition index {A} (s : list A) (i : Z) : result A :=
  if 0 <=? i then
    match s !! Z.to_nat i with
    | Some x => Ret x
    | None => Panic IndexOutOfRange
    end
  else Panic IndexOutOfRange.

(** [s[i] = x]; the result is the slice after the write. *)
Definition index_set {A} (s : list A) (i : Z) (x : A) : result (list A) :=
  if (0 <=? i) && (i <? len s) then Ret (<[Z.to_nat i := x]> s)
  else Panic IndexOutOfRange.

(** [make([]T, length, capacity)] with [zero] the zero value of [T], on a
    runtime that grants the allocation.  The runtime also refuses a slice
    whose size in bytes is past its allocation limit ([make_fits] below); a
    length taken from an existing slice of the same element type always
    fits, and where a length is computed instead, as in [Mul], the
    properties that need the slice assume [make_fits]. *)
Definition make {A} (zero : A) (length capacity : Z) : result (list A) :=
  if (0 <=? length) && (length <=? capacity) then Ret (replicate (Z.to_nat length) zero)
  else Panic MakeSliceRange.

(** The bytes of an interface value, and the largest size in bytes the
    runtime's [makeslice] accepts ([maxAlloc], with the 48-bit heap
    addresses of 64-bit targets). *)
Definition interface_size : Z := 16.
Definition max_alloc : Z := 2 ^ 48.

(** [make([]VecNum, length)] passes the size check of [makeslice]; past it
    the call panics with "len out of range". *)
Definition make_fits (length : Z) : Prop := length * interface_size <= max_alloc.

(** ** Pointers *)

Definition ptr (A : Type) : Type := option A.
Definition nil {A} : ptr A := None.

(** [p.field] read through the pointer [p]. *)
Definition load {A B} (p : ptr A) (field : A -> B) : result B :=
  match p with
  | Some a => Ret (field a)
  | None => Panic NilDereference
  end.

(** [p.field = v], given as the update [upd] of the struct [p] points to. *)
Definition store {A} (p : ptr A) (upd : A -> A) : result (ptr A) :=
  match p with
  | Some a => Ret (Some (upd a))
  | None => Panic NilDereference
  end.

(** ** Errors *)

(** An [error] value: [None] is [nil], [Some msg] what [errors.New(msg)] makes. *)
Definition error : Type := option string.
Definition errors_New (msg : string) : error := Some msg.

(** ** Loops *)

(** What a loop body (or a whole loop) leaves behind: the loop variables
    [s] when control goes on, or the results [r] of a [return] inside it. *)
Inductive flow (R S : Type) : Type :=
| Next (s : S)
| Return (r : R).
Arguments Next {R S} s.
Arguments Return {R S} r.

Fixpoint for_from {S} (count : nat) (i : Z) (body : Z -> S -> result S) (s : S)
  : result S :=
  match count with
  | O => Ret s
  | S c => s' ← body i s; for_from c (i + 1) body s'
  end.

(** [for i := 0; i < bound; i++ { body }] for a body that assigns neither [i]
    nor [bound] and has no [return]. *)
Definition for_range {S} (bound : Z) (body : Z -> S -> result S) (s : S) : result S :=
  for_from (Z.to_nat bound) 0 body s.

Fixpoint for_from_ret {R S} (count : nat) (i : Z)
    (body : Z -> S -> result (flow R S)) (s : S) : result (flow R S) :=
  match count with
  | O => Ret (Next s)
  | S c =>
      f ← body i s;
      match f with
      | Next s' => for_from_ret c (i + 1) body s'
      | Return r => Ret (Return r)
      end
  end.

(** The same loop for a body that may [return]. *)
Definition for_range_ret {R S} (bound : Z) (body : Z -> S -> result (flow R S)) (s : S)
  : result (flow R S) :=
  for_from_ret (Z.to_nat bound) 0 body s.

(** [for _, e := range s { body }] for a body whose only effect is a [return]. *)
Fixpoint range_ret {A R} (s : list A) (body : A -> result (flow R unit))
  : result (flow R unit) :=
  match s with
  | [] => Ret (Next tt)
  | e :: rest =>
      f ← body e;
      match f with
      | Next _ => range_ret rest body
      | Return r => Ret (Return r)
      end
  end.

(** ** The element collaborators

    [VecType], [VecNum] and [checkType] are declared in other files of the
    package; matrix.go only uses them.  They are parameters of the model:
    [VecType] is a comparable type with a zero value, and a non-nil [VecNum]
    holds a value of some type [Num] whose methods [add], [sub] and [mul] take
    a [VecNum] and either return one or panic. *)

Class VecTypeTag (VecType : Type) : Type := {
  VecType_eq_dec :: EqDecision VecType;
  VecType_zero : VecType;
}.

Class VecNumMethods (VecType Num : Type) : Type := {
  add : Num -> option Num -> result (option Num);
  sub : Num -> option Num -> result (option Num);
  mul : Num -> option Num -> result (option Num);
  checkType : VecType -> option Num -> bool;
}.

Section Engine.
Context {VecType Num : Type} `{!VecTypeTag VecType} `{!VecNumMethods VecType Num}.

(** The interface type: nil or a value with its methods. *)
Abbreviation VecNum := (option Num).

(** [recv.method(arg)] on an interface value. *)
Definition call (method : Num -> VecNum -> result VecNum) (recv arg : VecNum)
  : result VecNum :=
  match recv with
  | Some v => method v arg
  | None => Panic NilInterfaceCall
  end.

Record Matrix : Type := {
  m : Z;  n : Z;   (* an m x n matrix *)
  typ : VecType;
  dat : list VecNum;
}.

Definition set_m (v : Z) (mat : Matrix) : Matrix :=
  {| m := v; n := n mat; typ := typ mat; dat := dat mat |}.
Definition set_n (v : Z) (mat : Matrix) : Matrix :=
  {| m := m mat; n := v; typ := typ mat; dat := dat mat |}.
Definition set_typ (v : VecType) (mat : Matrix) : Matrix :=
  {| m := m mat; n := n mat; typ := v; dat := dat mat |}.
Definition set_dat (v : list VecNum) (mat : Matrix) : Matrix :=
  {| m := m mat; n := n mat; typ := typ mat; dat := v |}.

(** The zero value of the struct; its [dat] is the nil slice. *)
Definition Matrix_zero : Matrix :=
  {| m := 0; n := 0; typ := VecType_zero; dat := [] |}.

Definition NewMatrix (m' n' : Z) (typ' : VecType) : result (ptr Matrix) :=
  d ← make (None : VecNum) 0 2;
  Ret (Some {| m := m'; n := n'; typ := typ'; dat := d |}).

(** *** Constructors

    Each constructor has the named results [(mat *Matrix, err error)].  Its
    statements are given as a function of the value [mat] holds when they
    start; the constructor itself starts them from the zero value [nil]. *)

Definition MatrixFromCols_body (mat : ptr Matrix) (typ' : VecType)
    (el : list (list VecNum)) : result (ptr Matrix * error) :=
  mat ← store mat (set_typ typ');
  mat ← store mat (set_m (len el));
  el0 ← index el 0;
  mat ← store mat (set_n (len el0));
  mm ← load mat m;
  nn ← load mat n;
  d ← make None 0 (imul mm nn);
  mat ← store mat (set_dat d);
  (* Row Major Order, like in OpenGL *)
  nn ← load mat n;
  r ← for_range_ret nn (fun i mat =>
    mm ← load mat m;
    for_range_ret mm (fun j mat =>
      t ← load mat typ;
      elj ← index el j;
      e ← index elj i;
      if negb (checkType t e) then
        Ret (Return (nil, errors_New "Element type does not match matrix"))
      else
        d ← load mat dat;
        elj ← index el j;
        e ← index elj i;
        mat ← store mat (set_dat (d ++ [e]));
        Ret (Next mat)) mat) mat;
  match r with
  | Return res => Ret res
  | Next mat => Ret (mat, None)
  end.

Definition MatrixFromCols (typ' : VecType) (el : list (list VecNum))
  : result (ptr Matrix * error) :=
  MatrixFromCols_body nil typ' el.

Definition MatrixFromRows_body (mat : ptr Matrix) (typ' : VecType)
    (el : list (list VecNum)) : result (ptr Matrix * error) :=
  mat ← store mat (set_typ typ');
  mat ← store mat (set_m (len el));
  el0 ← index el 0;
  mat ← store mat (set_n (len el0));
  mm ← load mat m;
  nn ← load mat n;
  d ← make None 0 (imul mm nn);
  mat ← store mat (set_dat d);
  (* Row Major Order, like in OpenGL *)
  mm ← load mat m;
  r ← for_range_ret mm (fun i mat =>
    nn ← load mat n;
    for_range_ret nn (fun j mat =>
      t ← load mat typ;
      elj ← index el j;
      e ← index elj i;
      if negb (checkType t e) then
        Ret (Return (nil, errors_New "Element type does not match matrix"))
      else
        d ← load mat dat;
        elj ← index el j;
        e ← index elj i;
        mat ← store mat (set_dat (d ++ [e]));
        Ret (Next mat)) mat) mat;
  match r with
  | Return res => Ret res
  | Next mat => Ret (mat, None)
  end.

Definition MatrixFromRows (typ' : VecType) (el : list (list VecNum))
  : result (ptr Matrix * error) :=
  MatrixFromRows_body nil typ' el.

(* Slice-format data should be in Row Major Order *)
Definition MatrixFromSlice_body (mat : ptr Matrix) (typ' : VecType)
    (el : list VecNum) (m' n' : Z) : result (ptr Matrix * error) :=
  mat ← store mat (set_typ typ');
  mat ← store mat (set_m m');
  mat ← store mat (set_n n');
  mm ← load mat m;
  nn ← load mat n;
  if bool_decide (imul mm nn ≠ len el) then
    Ret (nil, errors_New "Matrix dimensions do not match data passed in")
  else
    r ← range_ret el (fun e =>
      t ← load mat typ;
      if negb (checkType t e) then
        Ret (Return (nil : ptr Matrix,
          errors_New "Type of at least one element does not match declared type"))
      else Ret (Next tt));
    match r with
    | Return res => Ret res
    | Next _ =>
        mat ← store mat (set_dat el);
        Ret (mat, None)
    end.

Definition MatrixFromSlice (typ' : VecType) (el : list VecNum) (m' n' : Z)
  : result (ptr Matrix * error) :=
  MatrixFromSlice_body nil typ' el m' n'.

(* Quick and dirty internal function to make a matrix without spending
   time checking types *)
Definition unsafeMatrixFromSlice_body (mat : ptr Matrix) (typ' : VecType)
    (el : list VecNum) (m' n' : Z) : result (ptr Matrix * error) :=
  mat ← store mat (set_typ typ');
  mat ← store mat (set_m m');
  mat ← store mat (set_n n');
  mat ← store mat (set_dat el);
  Ret (mat, None).

Definition unsafeMatrixFromSlice (typ' : VecType) (el : list VecNum) (m' n' : Z)
  : result (ptr Matrix * error) :=
  unsafeMatrixFromSlice_body nil typ' el m' n'.

(** *** Element access *)

(** [SetElement] has a pointer receiver; the result pairs the receiver
    after the call with the returned [error]. *)
Definition SetElement (mat : ptr Matrix) (i j : Z) (el : VecNum)
  : result (ptr Matrix * error) :=
  mm ← load mat m;
  nn ← load mat n;
  if (i <? mm) || (j <? nn) then
    Ret (mat, errors_New "Dimensions out of bounds")
  else
    t ← load mat typ;
    if negb (checkType t el) then
      Ret (mat, errors_New "Type of element does not match matrix's type")
    else
      d ← load mat dat;
      d ← index_set d (iadd (imul mm j) i) el;
      mat ← store mat (set_dat d);
      Ret (mat, None).

Definition ToScalar (mat : Matrix) : result VecNum :=
  if bool_decide (m mat ≠ 1) || bool_decide (n mat ≠ 1) then Ret None
  else index (dat mat) 0.

(** *** Arithmetic

    [Add], [Sub] and [Mul] have value receivers and the named result [m3],
    which starts as [Matrix_zero]; a bare [return] returns [m3]. *)

Definition Add (m1 m2 : Matrix) : result Matrix :=
  let m3 := Matrix_zero in
  if bool_decide (typ m1 ≠ typ m2) || bool_decide (len (dat m1) ≠ len (dat m2)) then
    Ret m3
  else
    let m3 := set_typ (typ m1) m3 in
    d ← make None (len (dat m1)) (len (dat m1));
    let m3 := set_dat d m3 in
    m3 ← for_range (len (dat m1)) (fun i m3 =>
      x ← index (dat m1) i;
      y ← index (dat m2) i;
      s ← call add x y;
      d ← index_set (dat m3) i s;
      Ret (set_dat d m3)) m3;
    Ret m3.

Definition Sub (m1 m2 : Matrix) : result Matrix :=
  let m3 := Matrix_zero in
  if bool_decide (typ m1 ≠ typ m2) || bool_decide (len (dat m1) ≠ len (dat m2)) then
    Ret m3
  else
    let m3 := set_typ (typ m1) m3 in
    d ← make None (len (dat m1)) (len (dat m1));
    let m3 := set_dat d m3 in
    m3 ← for_range (len (dat m1)) (fun i m3 =>
      x ← index (dat m1) i;
      y ← index (dat m2) i;
      s ← call sub x y;
      d ← index_set (dat m3) i s;
      Ret (set_dat d m3)) m3;
    Ret m3.

(** One pass of the innermost statement of [Mul],
    [dat[j*m2.n+i] = dat[j*m2.n+i].add(m1.dat[k*m1.n+i].mul(m2.dat[j*m2.n+k]))].
    Go fixes that [mul] is called before [add] and each operand is read before
    the call that uses it; the operands are read here from left to right. *)
Definition Mul_step (m1 m2 : Matrix) (j i k : Z) (d : list VecNum)
  : result (list VecNum) :=
  acc ← index d (iadd (imul j (n m2)) i);
  a ← index (dat m1) (iadd (imul k (n m1)) i);
  b ← index (dat m2) (iadd (imul j (n m2)) k);
  p ← call mul a b;
  s ← call add acc p;
  index_set d (iadd (imul j (n m2)) i) s.

Definition Mul (m1 m2 : Matrix) : result Matrix :=
  let m3 := Matrix_zero in
  if bool_decide (n m1 ≠ m m2) || bool_decide (typ m1 ≠ typ m2) then Ret m3
  else
    d ← make None (imul (m m1) (n m2)) (imul (m m1) (n m2));
    d ← for_range (n m2) (fun j d =>        (* Columns of m2 and m3 *)
      for_range (m m1) (fun i d =>          (* Rows of m1 and m3 *)
        for_range (n m1) (fun k d =>        (* Columns of m1, rows of m2 *)
          Mul_step m1 m2 j i k d) d) d) d;
    '(mat, err) ← unsafeMatrixFromSlice (typ m1) d (m m1) (n m2);
    if bool_decide (err ≠ None) then Ret m3
    else load mat id.

(** The spec's reading of [Add] and [Sub]: "each output element is the
    pairwise add/subtract of corresponding input elements in flat order". *)
Fixpoint pairwise (op : Num -> VecNum -> result VecNum) (xs ys : list VecNum)
  : result (list VecNum) :=
  match xs, ys with
  | x :: xs', y :: ys' =>
      s ← call op x y;
      rest ← pairwise op xs' ys';
      Ret (s :: rest)
  | _, _ => Ret []
  end.

(** The spec's "left-to-right sequential product
    multiply(multiply(multiply(A,B),C),D)...", over the [Mul] of the code. *)
Definition sequential_product (first : Matrix) (others : list Matrix) : result Matrix :=
  foldl (fun acc b => a ← acc; Mul a b) (Ret first) others.

(** The pairs that pass the check of [Mul]. *)
Definition Mul_compatible (m1 m2 : Matrix) : Prop := n m1 = m m2 /\ typ m1 = typ m2.

(** A sequence in which every adjacent pair passes the check of [Mul]. *)
Definition chain_compatible (args : list Matrix) : Prop :=
  forall (i : nat) (a b : Matrix),
    args !! i = Some a -> args !! S i = Some b -> Mul_compatible a b.

(** *** Batch multiplication

    [BatchMultiply] starts two goroutines, one per half of [args], and
    receives one matrix from each before it multiplies them.  The halves
    share nothing, so each delivers what [BatchMultiply] computes on it; a
    panic in a goroutine ends the whole program, as a panic here does.
    [batchMultHelper] only sends that result on the channel. *)

Equations? BatchMultiply (args : list Matrix) : result Matrix
  by wf (length args) lt :=
BatchMultiply args with decide (length args = 1%nat) => {
  | left _ => index args 0
  | right _ with decide (2 < length args)%nat => {
    | left _ =>
        (* Split up the work, matrix mult is associative *)
        m1 ← BatchMultiply (take (length args / 2)%nat args);
        m2 ← BatchMultiply (drop (length args / 2)%nat args);
        Mul m1 m2
    | right _ =>
        m1 ← index args 0;
        m2 ← index args 1;
        Mul m1 m2 } }.
Proof.
  all: change (Nat.divmod (length args) 1 0 1).1 with (length args / 2)%nat.
  all: rewrite ?length_take, ?length_drop.
  all: pose proof (Nat.div_lt (length args) 2);
    pose proof (Nat.div_str_pos (length args) 2); lia.
Qed.

End Engine.

(** ** Reduction to a vector

    [Vector] and [VectorOf] are declared in another file of the package.
    [AsVector] uses the zero value of [Vector] (its named result [v]) and
    the call [VectorOf(typ, dat)], which returns a pointer to a [Vector] and
    an [error]; both are parameters of the model. *)

Class VectorCollab (VecType Num Vector : Type) : Type := {
  Vector_zero : Vector;
  VectorOf : VecType -> list (option Num) -> result (ptr Vector * error);
}.

Section Reduction.
Context {VecType Num Vector : Type} `{!VectorCollab VecType Num Vector}.

(** [AsVector] has a value receiver and the named results
    [(v Vector, err error)]. *)
Definition AsVector (mat : @Matrix VecType Num) : result (Vector * error) :=
  let v := Vector_zero in
  if bool_decide (m mat <> 1) && bool_decide (n mat <> 1) then
    Ret (v, errors_New "Matrix is not 1-dimensional in either direction.")
  else
    '(vPoint, err) ← VectorOf (typ mat) (dat mat);
    if bool_decide (err <> None) then Ret (v, err)
    else
      vec ← load vPoint id;
      Ret (vec, None).

End Reduction.

(** ** An integer element type *)

(** Modelled from the spec: the [VecType] tags, declared outside matrix.go.
    The spec has one tag per numeric variant, the integers among them; the
    zero value of [VecType] tags no variant (the "untyped" matrix of
    [BatchMultiply]'s comment). *)
Inductive IntType : Type := NOTYPE | INTEGER.

#[export] Instance IntType_eq_dec : EqDecision IntType.
Proof. solve_decision. Defined.

#[export] Instance IntType_tag : VecTypeTag IntType := {| VecType_zero := NOTYPE |}.

(** Modelled from the spec: a binary method of the integer variant of
    [VecNum], declared outside matrix.go.  A variant has "add, subtract,
    multiply operating on same-variant pairs only", so the argument must hold
    an integer too.  The spec fixes no width for the integers; they are
    unbounded here. *)
Definition int_method (op : Z -> Z -> Z) (x : Z) (other : option Z)
  : result (option Z) :=
  match other with
  | Some y => Ret (Some (op x y))
  | None => Panic TypeAssertion
  end.

(** Modelled from the spec: the methods of the integer variant and the
    type-match predicate [checkType], "whether the value's runtime variant
    equals the tag". *)
#[export] Instance Int_methods : VecNumMethods IntType Z := {|
  add := int_method Z.add;
  sub := int_method Z.sub;
  mul := int_method Z.mul;
  checkType t e :=
    match t, e with
    | INTEGER, Some _ => true
    | _, _ => false
    end;
|}.

Definition IntMatrix : Type := @Matrix IntType Z.

(** The matrix with [rows] x [cols] logical shape and the integers [l] as
    its flat data. *)
Definition int_matrix (rows cols : Z) (l : list Z) : IntMatrix :=
  {| m := rows; n := cols; typ := INTEGER; dat := Some <$> l |}.

(** The spec's example matrix [[1,1],[0,1]]. *)
Definition shear : IntMatrix := int_matrix 2 2 [1; 1; 0; 1].

(** Two matrices with an empty side, as [NewMatrix(1, 0, typ)] and
    [NewMatrix(0, 1, typ)] make them. *)
Definition row_1x0 : IntMatrix := int_matrix 1 0 [].
Definition col_0x1 : IntMatrix := int_matrix 0 1 [].

(** A 2 x 1 column. *)
Definition column_2x1 : IntMatrix := int_matrix 2 1 [1; 2].

(** A 1 x 2 row and a 2 x 1 column whose product is a scalar. *)
Definition row_1x2 : IntMatrix := int_matrix 1 2 [3; 4].
Definition col_2x1 : IntMatrix := int_matrix 2 1 [5; 6].

(** The logical matrix [[1,2],[3,4]] written by columns and by rows. *)
Definition by_cols : list (list (option Z)) := [Some <$> [1; 3]; Some <$> [2; 4]].
Definition by_rows : list (list (option Z)) := [Some <$> [1; 2]; Some <$> [3; 4]].

(** Modelled from the spec: the vector collaborator, declared outside
    matrix.go.  The spec has the vector "sharing the element type and the
    same ordered data" and names no failure of the view, so this one holds
    the type and the data and always succeeds. *)
#[export] Instance Int_vector : VectorCollab IntType Z (IntType * list (option Z)) := {|
  Vector_zero := (NOTYPE, []);
  VectorOf t d := Ret (Some (t, d), None);
|}.

(** A 1 x 1 matrix. *)
Definition scalar_7 : IntMatrix := int_matrix 1 1 [7].

(** ** Properties of the building blocks *)

Lemma wrap_small (z : Z) : min_int <= z <= max_int -> wrap z = z.
Proof.
  unfold wrap, min_int, max_int, int_bits.
  change (2 ^ (64 - 1)) with 9223372036854775808.
  change (2 ^ 64) with 18446744073709551616.
  intros Hz. rewrite Z.mod_small; lia.
Qed.

Lemma imul_0_l (z : Z) : imul 0 z = 0.
Proof. unfold imul. rewrite Z.mul_0_l. reflexivity. Qed.

Lemma index_0 {A} (s : list A) (x : A) : s !! 0%nat = Some x -> index s 0 = Ret x.
Proof.
  intros Hs. unfold index.
  change (Z.to_nat 0) with 0%nat. rewrite Hs. reflexivity.
Qed.

Lemma index_lookup {A} (s : list A) (k : nat) (x : A) :
  s !! k = Some x -> index s (Z.of_nat k) = Ret x.
Proof.
  intros Hs. unfold index.
  destruct (Z.leb_spec 0 (Z.of_nat k)); [| lia].
  rewrite Nat2Z.id, Hs. reflexivity.
Qed.

Lemma index_set_in_range {A} (s : list A) (k : nat) (x : A) :
  (k < length s)%nat -> index_set s (Z.of_nat k) x = Ret (<[k := x]> s).
Proof.
  intros Hk. unfold index_set, len.
  destruct (Z.leb_spec 0 (Z.of_nat k)); [| lia].
  destruct (Z.ltb_spec (Z.of_nat k) (Z.of_nat (length s))); [| lia].
  rewrite Nat2Z.id. reflexivity.
Qed.

Lemma index_set_out_of_range {A} (s : list A) (i : Z) (x : A) :
  len s <= i -> index_set s i x = Panic IndexOutOfRange.
Proof.
  intros Hi. unfold index_set.
  destruct (Z.ltb_spec i (len s)); [lia |].
  rewrite andb_false_r. reflexivity.
Qed.

Lemma for_range_first {S} (bound : Z) (body : Z -> S -> result S) (s : S) :
  0 < bound ->
  for_range bound body s = (s' ← body 0 s; for_from (Z.to_nat bound - 1) 1 body s').
Proof.
  intros Hb. unfold for_range.
  destruct (Z.to_nat bound) as [|c] eqn:Hc; [lia |].
  simpl. rewrite Nat.sub_0_r. reflexivity.
Qed.

Lemma for_range_first_panic {S} (bound : Z) (body : Z -> S -> result S) (s : S) p :
  0 < bound -> body 0 s = Panic p -> for_range bound body s = Panic p.
Proof. intros Hb Hp. rewrite for_range_first, Hp by done. reflexivity. Qed.

(** A property of the loop variables that every pass keeps holds when the
    loop ends. *)
Lemma for_from_invariant {S} (P : S -> Prop) (body : Z -> S -> result S) :
  (forall i s s', P s -> body i s = Ret s' -> P s') ->
  forall count i s r, P s -> for_from count i body s = Ret r -> P r.
Proof.
  intros Hbody count. induction count as [|c IH]; intros i s r Hs Hr; simpl in Hr.
  - congruence.
  - destruct (body i s) as [s'|p] eqn:Hb; simpl in Hr; [| discriminate].
    eapply IH; [eapply Hbody |]; eauto.
Qed.

(** ** Properties of the engine, for any element collaborators *)

Section EngineFacts.
Context {VecType Num : Type} `{!VecTypeTag VecType} `{!VecNumMethods VecType Num}.
Abbreviation VecNum := (option Num).
Implicit Types (mat : @Matrix VecType Num) (el : VecNum).

(** *** Constructors *)

(** C3: each of the four constructors stores a field through its named
    result [mat] while [mat] is still nil, ahead of every validation; so on
    every input it panics with a nil pointer dereference, and returns neither
    a matrix nor an error value. *)
Theorem constructors_panic_on_nil_result
    (typ' : VecType) (cols rows : list (list (VecNum)))
    (el : list (VecNum)) (m' n' : Z) :
  MatrixFromCols typ' cols = Panic NilDereference /\
  MatrixFromRows typ' rows = Panic NilDereference /\
  MatrixFromSlice typ' el m' n' = Panic NilDereference /\
  unsafeMatrixFromSlice typ' el m' n' = Panic NilDereference.
Proof. repeat split; reflexivity. Qed.

Lemma unsafeMatrixFromSlice_panics (typ' : VecType) (el : list (VecNum)) (m' n' : Z) :
  unsafeMatrixFromSlice typ' el m' n' = Panic NilDereference.
Proof. reflexivity. Qed.

(** *** Multiplication *)

Lemma Mul_incompatible (m1 m2 : @Matrix VecType Num) :
  n m1 <> m m2 \/ typ m1 <> typ m2 -> Mul m1 m2 = Ret Matrix_zero.
Proof.
  intros H. unfold Mul.
  destruct H as [H | H]; rewrite (bool_decide_eq_true_2 _ H);
    rewrite ?orb_true_r; reflexivity.
Qed.

(** What is left of [Mul] once its check has passed. *)
Lemma Mul_checked (m1 m2 : @Matrix VecType Num) :
  Mul_compatible m1 m2 ->
  Mul m1 m2 =
    (d ← make None (imul (m m1) (n m2)) (imul (m m1) (n m2));
     d ← for_range (n m2) (fun j d =>
       for_range (m m1) (fun i d =>
         for_range (n m1) (fun k d => Mul_step m1 m2 j i k d) d) d) d;
     '(mat, err) ← unsafeMatrixFromSlice (typ m1) d (m m1) (n m2);
     if bool_decide (err <> None) then Ret Matrix_zero else load mat id).
Proof.
  intros [Hn Ht]. unfold Mul.
  rewrite (bool_decide_eq_false_2 (n m1 <> m m2)) by tauto.
  rewrite (bool_decide_eq_false_2 (typ m1 <> typ m2)) by tauto.
  reflexivity.
Qed.

(** [Mul] never returns from a pair that passes its check: at the latest
    the call of [unsafeMatrixFromSlice] panics. *)
Lemma Mul_compatible_never_returns (m1 m2 : @Matrix VecType Num) :
  Mul_compatible m1 m2 -> panics (Mul m1 m2).
Proof.
  intros Hc. rewrite (Mul_checked _ _ Hc).
  destruct (make _ _ _) as [d|p]; simpl; [| by exists p].
  destruct (for_range _ _ _) as [d'|p]; simpl; [| by exists p].
  by exists NilDereference.
Qed.

(** The first pass of the innermost loop of [Mul]: the accumulator slot
    still holds the nil that [make] put there. *)
Lemma Mul_step_first (m1 m2 : @Matrix VecType Num) (d : list (VecNum)) (x : Num) (y r : VecNum) :
  d !! 0%nat = Some None ->
  dat m1 !! 0%nat = Some (Some x) ->
  dat m2 !! 0%nat = Some y ->
  mul x y = Ret r ->
  Mul_step m1 m2 0 0 0 d = Panic NilInterfaceCall.
Proof.
  intros Hd H1 H2 Hmul. unfold Mul_step.
  rewrite !imul_0_l. change (iadd 0 0) with 0.
  rewrite (index_0 _ _ Hd), (index_0 _ _ H1), (index_0 _ _ H2).
  simpl. rewrite Hmul. reflexivity.
Qed.

Lemma Mul_first_accumulation (m1 m2 : @Matrix VecType Num) (x : Num) (y r : VecNum) :
  Mul_compatible m1 m2 ->
  0 < m m1 -> 0 < n m1 -> 0 < n m2 -> 0 < imul (m m1) (n m2) ->
  make_fits (imul (m m1) (n m2)) ->
  dat m1 !! 0%nat = Some (Some x) ->
  dat m2 !! 0%nat = Some y ->
  mul x y = Ret r ->
  Mul m1 m2 = Panic NilInterfaceCall.
Proof.
  intros Hc Hm1 Hn1 Hn2 Hlen _ H1 H2 Hmul. rewrite (Mul_checked _ _ Hc).
  unfold make.
  destruct (Z.leb_spec 0 (imul (m m1) (n m2))); [| lia].
  rewrite Z.leb_refl. simpl.
  destruct (Z.to_nat (imul (m m1) (n m2))) as [|c] eqn:Hc'; [lia |].
  rewrite (for_range_first_panic _ _ _ NilInterfaceCall); [reflexivity | done |].
  apply for_range_first_panic; [done |].
  apply for_range_first_panic; [done |].
  eapply Mul_step_first; eauto.
Qed.

(** C9 (amended): [Mul] never returns a product for a pair that passes its
    check, it panics.  When [m1] has a row and a column, [m2] a column, the
    result a first slot and a length that [make] accepts, and the first
    elements of both operands are there with [mul] returning on them, the
    panic is the call of [add] on the nil accumulator in the first
    accumulation step. *)
Theorem Mul_compatible_panics (m1 m2 : @Matrix VecType Num) :
  n m1 = m m2 -> typ m1 = typ m2 ->
  panics (Mul m1 m2) /\
  (forall (x : Num) (y r : VecNum),
     0 < m m1 -> 0 < n m1 -> 0 < n m2 -> 0 < imul (m m1) (n m2) ->
     make_fits (imul (m m1) (n m2)) ->
     dat m1 !! 0%nat = Some (Some x) ->
     dat m2 !! 0%nat = Some y ->
     mul x y = Ret r ->
     Mul m1 m2 = Panic NilInterfaceCall).
Proof.
  intros Hn Ht. split.
  - by apply Mul_compatible_never_returns.
  - intros x y r. by apply Mul_first_accumulation.
Qed.

(** *** Element access *)

Lemma SetElement_rejected mat (i j : Z) el :
  i < m mat \/ j < n mat ->
  SetElement (Some mat) i j el = Ret (Some mat, errors_New "Dimensions out of bounds").
Proof.
  intros H. unfold SetElement. simpl.
  destruct (Z.ltb_spec i (m mat)), (Z.ltb_spec j (n mat)); simpl; try reflexivity; lia.
Qed.

(** What is left of [SetElement] once its bounds test has let the indices
    through. *)
Lemma SetElement_passed mat (i j : Z) el :
  m mat <= i -> n mat <= j ->
  SetElement (Some mat) i j el =
    if checkType (typ mat) el then
      d ← index_set (dat mat) (iadd (imul (m mat) j) i) el;
      Ret (Some (set_dat d mat), None)
    else Ret (Some mat, errors_New "Type of element does not match matrix's type").
Proof.
  intros Hi Hj. unfold SetElement. simpl.
  destruct (Z.ltb_spec i (m mat)), (Z.ltb_spec j (n mat)); try lia. simpl.
  destruct (checkType (typ mat) el); simpl; [| reflexivity].
  destruct (index_set _ _ _); reflexivity.
Qed.

(** The offset of indices that pass the bounds test, when computing it does
    not overflow. *)
Lemma SetElement_offset mat (i j : Z) :
  0 < m mat -> len (dat mat) = m mat * n mat ->
  m mat <= i -> n mat <= j -> m mat * j + i <= max_int ->
  iadd (imul (m mat) j) i = m mat * j + i /\ len (dat mat) < m mat * j + i.
Proof.
  intros Hm Hlen Hi Hj Hmax.
  assert (0 <= len (dat mat)) by (unfold len; lia).
  assert (0 <= n mat) by nia.
  assert (m mat * n mat <= m mat * j) by nia.
  assert (min_int <= 0) by (by vm_compute).
  unfold iadd, imul. rewrite (wrap_small (m mat * j)) by lia.
  rewrite wrap_small by lia. lia.
Qed.

(** C10 (amended): on a matrix with [len(dat) = m*n] and [m > 0], every
    index pair with [i < m] or [j < n] is rejected by the bounds test and
    the matrix is left as it was; every pair that passes the test and whose
    offset [m*j + i] does not overflow [int] has that offset past the end of
    [dat], so the call either reports the type mismatch or panics on the
    write.  No such call writes an element. *)
Theorem SetElement_never_writes_in_range mat (i j : Z) el :
  0 < m mat -> len (dat mat) = m mat * n mat ->
  (i < m mat \/ j < n mat ->
     SetElement (Some mat) i j el =
       Ret (Some mat, errors_New "Dimensions out of bounds")) /\
  (m mat <= i -> n mat <= j -> m mat * j + i <= max_int ->
     len (dat mat) <= iadd (imul (m mat) j) i /\
     SetElement (Some mat) i j el =
       if checkType (typ mat) el then Panic IndexOutOfRange
       else Ret (Some mat, errors_New "Type of element does not match matrix's type")).
Proof.
  intros Hm Hlen. split.
  - apply SetElement_rejected.
  - intros Hi Hj Hmax.
    destruct (SetElement_offset mat i j Hm Hlen Hi Hj Hmax) as [Hoff Hpast].
    split; [lia |].
    rewrite SetElement_passed by done.
    rewrite index_set_out_of_range by lia. reflexivity.
Qed.

(** *** Addition and subtraction *)

Lemma Add_Sub_mismatch (m1 m2 : @Matrix VecType Num) :
  typ m1 <> typ m2 \/ len (dat m1) <> len (dat m2) ->
  Add m1 m2 = Ret Matrix_zero /\ Sub m1 m2 = Ret Matrix_zero.
Proof.
  intros H. unfold Add, Sub.
  destruct H as [H | H]; rewrite (bool_decide_eq_true_2 _ H);
    rewrite ?orb_true_r; split; reflexivity.
Qed.

(** The loop shared by [Add] and [Sub], started after [done] slots have been
    filled: it fills the rest with the pairwise results. *)
Lemma pairwise_loop (op : Num -> VecNum -> result VecNum) (m1 m2 : @Matrix VecType Num) :
  forall (xs ys pre1 pre2 done : list VecNum) (base : @Matrix VecType Num),
    length pre1 = length done -> length pre2 = length done ->
    length xs = length ys ->
    dat m1 = pre1 ++ xs -> dat m2 = pre2 ++ ys ->
    dat base = done ++ replicate (length xs) None ->
    for_from (length xs) (Z.of_nat (length done)) (fun i m3 =>
      x ← index (dat m1) i;
      y ← index (dat m2) i;
      s ← call op x y;
      d ← index_set (dat m3) i s;
      Ret (set_dat d m3)) base
    = (d ← pairwise op xs ys; Ret (set_dat (done ++ d) base)).
Proof.
  induction xs as [|x xs IH]; intros ys pre1 pre2 done base Hp1 Hp2 Hlen H1 H2 Hb.
  - destruct ys; [| discriminate]. simpl in *.
    destruct base; simpl in *; subst. by rewrite !app_nil_r.
  - destruct ys as [|y ys]; [discriminate |]. injection Hlen as Hlen.
    cbn [for_from length pairwise].
    rewrite (index_lookup (dat m1) (length done) x)
      by (rewrite H1; by apply list_lookup_middle).
    rewrite (index_lookup (dat m2) (length done) y)
      by (rewrite H2; by apply list_lookup_middle).
    simpl.
    destruct (call op x y) as [s|p]; simpl; [| reflexivity].
    rewrite index_set_in_range
      by (rewrite Hb, length_app, length_replicate; simpl; lia).
    simpl. rewrite Hb. cbn [length replicate].
    rewrite insert_app_r_alt, Nat.sub_diag by done. simpl.
    replace (Z.of_nat (length done) + 1) with (Z.of_nat (length (done ++ [s])))
      by (rewrite length_app; simpl; lia).
    rewrite (IH ys (pre1 ++ [x]) (pre2 ++ [y]) (done ++ [s])).
    + destruct (pairwise op xs ys) as [rest|p]; simpl; [| reflexivity].
      unfold set_dat. simpl. by rewrite <- app_assoc.
    + rewrite !length_app. simpl. lia.
    + rewrite !length_app. simpl. lia.
    + done.
    + by rewrite <- app_assoc.
    + by rewrite <- app_assoc.
    + simpl. by rewrite <- app_assoc.
Qed.

(** [Add] on matching operands: the pairwise sums under the type of [m1],
    in a matrix whose [m] and [n] are never assigned. *)
Lemma Add_matched (m1 m2 : @Matrix VecType Num) :
  typ m1 = typ m2 -> length (dat m1) = length (dat m2) ->
  Add m1 m2 =
    (d ← pairwise add (dat m1) (dat m2);
     Ret {| m := 0; n := 0; typ := typ m1; dat := d |}).
Proof.
  intros Ht Hl. unfold Add.
  rewrite (bool_decide_eq_false_2 (typ m1 <> typ m2)) by tauto.
  rewrite (bool_decide_eq_false_2 (len (dat m1) <> len (dat m2)))
    by (unfold len; lia).
  simpl. unfold make, for_range, len.
  destruct (Z.leb_spec 0 (Z.of_nat (length (dat m1)))); [| lia].
  rewrite Z.leb_refl, Nat2Z.id. simpl.
  rewrite (pairwise_loop add m1 m2 (dat m1) (dat m2) [] [] []); try done.
  destruct (pairwise add (dat m1) (dat m2)); reflexivity.
Qed.

Lemma Sub_matched (m1 m2 : @Matrix VecType Num) :
  typ m1 = typ m2 -> length (dat m1) = length (dat m2) ->
  Sub m1 m2 =
    (d ← pairwise sub (dat m1) (dat m2);
     Ret {| m := 0; n := 0; typ := typ m1; dat := d |}).
Proof.
  intros Ht Hl. unfold Sub.
  rewrite (bool_decide_eq_false_2 (typ m1 <> typ m2)) by tauto.
  rewrite (bool_decide_eq_false_2 (len (dat m1) <> len (dat m2)))
    by (unfold len; lia).
  simpl. unfold make, for_range, len.
  destruct (Z.leb_spec 0 (Z.of_nat (length (dat m1)))); [| lia].
  rewrite Z.leb_refl, Nat2Z.id. simpl.
  rewrite (pairwise_loop sub m1 m2 (dat m1) (dat m2) [] [] []); try done.
  destruct (pairwise sub (dat m1) (dat m2)); reflexivity.
Qed.

(** *** Batch multiplication *)

Lemma BatchMultiply_single (a : @Matrix VecType Num) : BatchMultiply [a] = Ret a.
Proof. reflexivity. Qed.

Lemma BatchMultiply_pair (a b : @Matrix VecType Num) : BatchMultiply [a; b] = Mul a b.
Proof. reflexivity. Qed.

Lemma BatchMultiply_long (args : list (@Matrix VecType Num)) :
  (2 < length args)%nat ->
  BatchMultiply args =
    (m1 ← BatchMultiply (take (length args / 2)%nat args);
     m2 ← BatchMultiply (drop (length args / 2)%nat args);
     Mul m1 m2).
Proof.
  intros Hlen. etransitivity; [apply BatchMultiply_equation_1 |].
  destruct (decide (length args = 1%nat)) as [H1 | H1]; [lia |]. simpl.
  destruct (decide (2 < length args)%nat) as [H2 | H2]; [| lia].
  reflexivity.
Qed.

Lemma chain_compatible_drop (k : nat) (args : list (@Matrix VecType Num)) :
  chain_compatible args -> chain_compatible (drop k args).
Proof.
  intros Hc i a b Ha Hb. rewrite lookup_drop in Ha, Hb.
  apply (Hc (k + i)%nat); [done |]. by rewrite <- Nat.add_succ_r.
Qed.

(** On a chain of two or more matrices that [Mul] accepts pairwise,
    [BatchMultiply] never returns: some [Mul] it reaches panics. *)
Lemma BatchMultiply_chain_never_returns (args : list (@Matrix VecType Num)) :
  chain_compatible args -> (2 <= length args)%nat -> panics (BatchMultiply args).
Proof.
  remember (length args) as k eqn:Hk. revert args Hk.
  induction k as [k IH] using lt_wf_ind. intros args Hk Hc Hlen.
  destruct (decide (k = 2%nat)) as [-> | Hne].
  - destruct args as [|a [|b [|c rest]]]; try discriminate.
    rewrite BatchMultiply_pair.
    apply Mul_compatible_never_returns. by apply (Hc 0%nat).
  - rewrite BatchMultiply_long by lia.
    pose proof (Nat.div_mod_eq (length args) 2).
    pose proof (Nat.mod_upper_bound (length args) 2).
    destruct (IH (length (drop (length args / 2) args))
                (ltac:(rewrite length_drop; lia))
                (drop (length args / 2) args) eq_refl) as [p Hp].
    + by apply chain_compatible_drop.
    + rewrite length_drop. lia.
    + destruct (BatchMultiply (take _ _)) as [m1|q];
        cbn -[Nat.div take drop]; [| by exists q].
      rewrite Hp. by exists p.
Qed.

Lemma foldl_Mul_panic (p : panic) (others : list (@Matrix VecType Num)) :
  foldl (fun acc b => a ← acc; Mul a b) (Panic p) others = Panic p.
Proof. induction others as [|b others IH]; [reflexivity | exact IH]. Qed.

(** So does the sequential product of such a chain. *)
Lemma sequential_product_chain_never_returns
    (a b : @Matrix VecType Num) (others : list (@Matrix VecType Num)) :
  chain_compatible (a :: b :: others) -> panics (sequential_product a (b :: others)).
Proof.
  intros Hc. unfold sequential_product. simpl.
  destruct (Mul_compatible_never_returns a b) as [p Hp]; [by apply (Hc 0%nat) |].
  rewrite Hp, foldl_Mul_panic. by exists p.
Qed.

(** *** Summary statements *)

(** X2: [Mul] answers a pair that fails its check with the zero value of
    [Matrix]. *)
Theorem Mul_rejects_incompatible (m1 m2 : @Matrix VecType Num) :
  n m1 <> m m2 \/ typ m1 <> typ m2 -> Mul m1 m2 = Ret Matrix_zero.
Proof. apply Mul_incompatible. Qed.

(** X1: [Add] and [Sub] answer operands of different type or data length with
    the zero value of [Matrix]; on matching operands they compute the
    pairwise results in flat order under the type of [m1], and leave the
    shape of the result at 0 x 0. *)
Theorem Add_Sub_results (m1 m2 : @Matrix VecType Num) :
  (typ m1 <> typ m2 \/ len (dat m1) <> len (dat m2) ->
     Add m1 m2 = Ret Matrix_zero /\ Sub m1 m2 = Ret Matrix_zero) /\
  (typ m1 = typ m2 -> length (dat m1) = length (dat m2) ->
     Add m1 m2 =
       (d ← pairwise add (dat m1) (dat m2);
        Ret {| m := 0; n := 0; typ := typ m1; dat := d |}) /\
     Sub m1 m2 =
       (d ← pairwise sub (dat m1) (dat m2);
        Ret {| m := 0; n := 0; typ := typ m1; dat := d |})).
Proof.
  split.
  - apply Add_Sub_mismatch.
  - intros Ht Hl. split; [by apply Add_matched | by apply Sub_matched].
Qed.

(** X3: [BatchMultiply] returns a single matrix unchanged, hands two matrices
    to [Mul], and panics on the empty sequence. *)
Theorem BatchMultiply_short_sequences (a b : @Matrix VecType Num) :
  BatchMultiply [a] = Ret a /\
  BatchMultiply [a; b] = Mul a b /\
  BatchMultiply ([] : list (@Matrix VecType Num)) = Panic IndexOutOfRange.
Proof. repeat split. Qed.

(** X4: on two or more matrices that [Mul] accepts pairwise, neither
    [BatchMultiply] nor the sequential product returns a matrix. *)
Theorem BatchMultiply_compatible_chain_panics
    (a b : @Matrix VecType Num) (others : list (@Matrix VecType Num)) :
  chain_compatible (a :: b :: others) ->
  panics (BatchMultiply (a :: b :: others)) /\
  panics (sequential_product a (b :: others)).
Proof.
  intros Hc. split.
  - apply BatchMultiply_chain_never_returns; [done | simpl; lia].
  - by apply sequential_product_chain_never_returns.
Qed.

(** X5: [SetElement] reports "Dimensions out of bounds" exactly for the index
    pairs with [i < m] or [j < n]. *)
Theorem SetElement_out_of_bounds_iff mat (i j : Z) el :
  SetElement (Some mat) i j el = Ret (Some mat, errors_New "Dimensions out of bounds")
  <-> i < m mat \/ j < n mat.
Proof.
  split; [| apply SetElement_rejected].
  intros Hset.
  destruct (Z.lt_ge_cases i (m mat)) as [|Hi]; [by left |].
  destruct (Z.lt_ge_cases j (n mat)) as [|Hj]; [by right |].
  rewrite SetElement_passed in Hset by done.
  destruct (checkType (typ mat) el); [| discriminate].
  destruct (index_set _ _ _); discriminate.
Qed.

End EngineFacts.

(** ** The engine on integer matrices *)

Lemma pairwise_int (op : Z -> Z -> Z) (xs ys : list Z) :
  pairwise (int_method op) (Some <$> xs) (Some <$> ys)
  = Ret (Some <$> zip_with op xs ys).
Proof.
  revert ys. induction xs as [|x xs IH]; intros [|y ys]; try reflexivity.
  cbn [fmap list_fmap pairwise call int_method zip_with].
  change (list_fmap Z (option Z) Some) with (fmap (M:=list) (@Some Z)).
  rewrite IH. reflexivity.
Qed.

Lemma zip_with_sub_add (xs ys : list Z) :
  length xs = length ys -> zip_with Z.sub (zip_with Z.add xs ys) ys = xs.
Proof.
  revert ys. induction xs as [|x xs IH]; intros [|y ys] Hl; try discriminate.
  - reflexivity.
  - simpl. f_equal; [lia | apply IH; by injection Hl].
Qed.

(** X6: on integer matrices with as many elements, [Add] followed by [Sub] of
    the same operand restores the data and the type of the first operand in
    a matrix of shape 0 x 0, whatever the shapes of the operands. *)
Theorem Sub_Add_int_restores_data (rows cols rows' cols' : Z) (xs ys : list Z) :
  length xs = length ys ->
  (s ← Add (int_matrix rows cols xs) (int_matrix rows' cols' ys);
   Sub s (int_matrix rows' cols' ys))
  = Ret (int_matrix 0 0 xs).
Proof.
  intros Hl.
  rewrite Add_matched by (simpl; rewrite ?length_fmap; done).
  cbn [dat int_matrix typ]. 
  change (@add IntType Z Int_methods) with (int_method Z.add).
  rewrite pairwise_int. cbn [mbind result_bind].
  rewrite Sub_matched
    by (simpl; rewrite ?length_fmap, ?length_zip_with; lia || done).
  cbn [dat int_matrix typ].
  change (@sub IntType Z Int_methods) with (int_method Z.sub).
  rewrite pairwise_int, zip_with_sub_add by done. reflexivity.
Qed.

Lemma Sub_Add_int_restores_data_witness :
  (s ← Add shear (int_matrix 1 4 [5; 6; 7; 8]); Sub s (int_matrix 1 4 [5; 6; 7; 8]))
  = Ret (int_matrix 0 0 [1; 1; 0; 1]).
Proof. apply (Sub_Add_int_restores_data 2 2 1 4 [1; 1; 0; 1] [5; 6; 7; 8] eq_refl). Defined.

Lemma Mul_rejects_incompatible_witness : Mul shear row_1x2 = Ret Matrix_zero.
Proof. apply (Mul_rejects_incompatible shear row_1x2). left. discriminate. Defined.

Lemma Add_Sub_results_witness :
  (Add shear row_1x2 = Ret Matrix_zero /\ Sub shear row_1x2 = Ret Matrix_zero) /\
  Add shear shear = Ret (int_matrix 0 0 [2; 2; 0; 2]).
Proof.
  destruct (Add_Sub_results shear row_1x2) as [Hmis _].
  destruct (Add_Sub_results shear shear) as [_ Hmatch].
  split.
  - apply Hmis. right. discriminate.
  - destruct (Hmatch eq_refl eq_refl) as [Hadd _]. rewrite Hadd. reflexivity.
Defined.

Lemma BatchMultiply_compatible_chain_panics_witness :
  panics (BatchMultiply [shear; shear; shear; shear]) /\
  panics (sequential_product shear [shear; shear; shear]).
Proof.
  apply (BatchMultiply_compatible_chain_panics shear shear [shear; shear]).
  intros [|[|[|i]]] a b Ha Hb; simplify_eq/=; by split.
Defined.

(** C1: the spec's example.  [Mul] of the 2 x 2 integer matrix
    [[1,1],[0,1]] with itself does not return [[1,2],[0,1]]: the first
    accumulation step calls [add] on the nil slot of the fresh result slice
    and panics. *)
Theorem Mul_shear_squared_panics : Mul shear shear = Panic NilInterfaceCall.
Proof. vm_compute. reflexivity. Qed.

(** C2: [BatchMultiply] of three copies of the example matrix returns no
    matrix, and neither does their left-to-right sequential product: the
    first [Mul] either of them reaches panics.  A single matrix is returned
    unchanged, and two are handed to [Mul]. *)
Theorem BatchMultiply_shear_chain_panics :
  BatchMultiply [shear; shear; shear] = Panic NilInterfaceCall /\
  sequential_product shear [shear; shear] = Panic NilInterfaceCall /\
  BatchMultiply [shear; shear] = Mul shear shear /\
  BatchMultiply [shear] = Ret shear.
Proof. repeat split; vm_compute; reflexivity. Qed.

(** C4: the bounds test of [SetElement] is flipped.  On the 2 x 2 example
    the in-range position (0,0) is refused as out of bounds, and the position
    (2,2), at both boundaries, passes the test and panics on the write
    instead of returning the error. *)
Theorem SetElement_shear_bounds_flipped :
  SetElement (Some shear) 0 0 (Some 5)
    = Ret (Some shear, errors_New "Dimensions out of bounds") /\
  SetElement (Some shear) 2 2 (Some 5) = Panic IndexOutOfRange.
Proof. split; vm_compute; reflexivity. Qed.

(** C5: [MatrixFromSlice] panics before it validates anything: with four
    elements for a 2 x 2 matrix it returns no matrix, with one element for a
    2 x 2 matrix no dimension error, with a nil element no type error. *)
Theorem MatrixFromSlice_examples_panic :
  MatrixFromSlice INTEGER (Some <$> [1; 1; 0; 1]) 2 2 = Panic NilDereference /\
  MatrixFromSlice INTEGER (Some <$> [1]) 2 2 = Panic NilDereference /\
  MatrixFromSlice INTEGER [None] 1 1 = Panic NilDereference.
Proof. repeat split. Qed.

(** The statements of the constructors behind the first store, run from an
    allocated struct: [MatrixFromSlice] validates as the spec says, and
    [MatrixFromCols] and [MatrixFromRows] disagree on the data of the same
    logical matrix (both read [el[j][i]]). *)
Lemma constructor_bodies_from_allocated_result :
  MatrixFromSlice_body (Some Matrix_zero) INTEGER (Some <$> [1; 1; 0; 1]) 2 2
    = Ret (Some shear, None) /\
  MatrixFromSlice_body (Some Matrix_zero) INTEGER (Some <$> [1]) 2 2
    = Ret (nil, errors_New "Matrix dimensions do not match data passed in") /\
  MatrixFromSlice_body (Some Matrix_zero) INTEGER [None] 1 1
    = Ret (nil, errors_New "Type of at least one element does not match declared type") /\
  MatrixFromCols_body (Some Matrix_zero) INTEGER by_cols
    = Ret (Some (int_matrix 2 2 [1; 2; 3; 4]), None) /\
  MatrixFromRows_body (Some Matrix_zero) INTEGER by_rows
    = Ret (Some (int_matrix 2 2 [1; 3; 2; 4]), None).
Proof. repeat split; vm_compute; reflexivity. Qed.

(** C6: [Add] and [Sub] of the 2 x 2 example with itself return the
    pairwise results under the right type, but as a 0 x 0 matrix: [m] and
    [n] of the result are never assigned. *)
Theorem Add_Sub_shear_drop_shape :
  Add shear shear = Ret (int_matrix 0 0 [2; 2; 0; 2]) /\
  Sub shear shear = Ret (int_matrix 0 0 [0; 0; 0; 0]).
Proof. split; vm_compute; reflexivity. Qed.

(** C7: subtracting the example from its sum with itself gives back its
    data and type in a 0 x 0 matrix, which is not the example. *)
Theorem Sub_Add_shear_loses_shape :
  (s ← Add shear shear; Sub s shear) = Ret (int_matrix 0 0 [1; 1; 0; 1]) /\
  int_matrix 0 0 [1; 1; 0; 1] <> shear.
Proof. split; [vm_compute; reflexivity | discriminate]. Qed.

(** C8: for the logical matrix [[1,2],[3,4]], [MatrixFromCols] on its
    columns and [MatrixFromRows] on its rows both panic; neither makes a
    matrix to compare. *)
Theorem MatrixFromCols_MatrixFromRows_panic :
  MatrixFromCols INTEGER by_cols = Panic NilDereference /\
  MatrixFromRows INTEGER by_rows = Panic NilDereference.
Proof. split; reflexivity. Qed.

(** C9, as stated, fails on a 1 x 0 by 0 x 1 product: the pair passes the
    check and the result has one element, but the innermost loop has no
    pass, no [add] is called, and the panic is the nil pointer store of
    [unsafeMatrixFromSlice]. *)
Lemma Mul_empty_inner_dimension :
  (NewMatrix 1 0 INTEGER = Ret (Some row_1x0) /\
   NewMatrix 0 1 INTEGER = Ret (Some col_0x1)) /\
  (n row_1x0 = m col_0x1 /\ typ row_1x0 = typ col_0x1 /\
   imul (m row_1x0) (n col_0x1) = 1) /\
  Mul row_1x0 col_0x1 = Panic NilDereference /\
  Mul row_1x0 col_0x1 <> Panic NilInterfaceCall.
Proof.
  split; [split; reflexivity |].
  split; [repeat split |].
  split; [vm_compute; reflexivity | vm_compute; discriminate].
Qed.

Lemma Mul_compatible_panics_witness :
  panics (Mul row_1x2 col_2x1) /\ Mul row_1x2 col_2x1 = Panic NilInterfaceCall.
Proof.
  destruct (Mul_compatible_panics row_1x2 col_2x1 eq_refl eq_refl) as [Hp Hadd].
  split; [exact Hp |].
  apply (Hadd 3 (Some 5) (Some 15)); try reflexivity.
  vm_compute. discriminate.
Defined.

(** C10, as stated, fails when the offset overflows: on a 2 x 1 matrix the
    indices [i = 2], [j = max_int] pass the bounds test, the offset
    [2*j + 2] wraps around to 0, and the call overwrites the first
    element and reports success. *)
Lemma SetElement_wrapped_offset_writes :
  (0 < m column_2x1 /\ len (dat column_2x1) = m column_2x1 * n column_2x1 /\
   m column_2x1 <= 2 /\ n column_2x1 <= max_int) /\
  iadd (imul (m column_2x1) max_int) 2 = 0 /\
  SetElement (Some column_2x1) 2 max_int (Some 7)
    = Ret (Some (int_matrix 2 1 [7; 2]), None).
Proof. repeat split; vm_compute; congruence. Qed.

Lemma SetElement_never_writes_in_range_witness :
  SetElement (Some shear) 0 1 (Some 5)
    = Ret (Some shear, errors_New "Dimensions out of bounds") /\
  len (dat shear) <= iadd (imul (m shear) 2) 2 /\
  SetElement (Some shear) 2 2 (Some 5) = Panic IndexOutOfRange.
Proof.
  split.
  - apply (SetElement_never_writes_in_range shear 0 1 (Some 5)); try reflexivity.
    left. reflexivity.
  - destruct (SetElement_never_writes_in_range shear 2 2 (Some 5) eq_refl eq_refl)
      as [_ Hpast].
    apply Hpast; vm_compute; discriminate.
Defined.

(** ** Further properties of the engine *)

Section EngineUse.
Context {VecType Num Vector : Type} `{!VecTypeTag VecType}
  `{!VecNumMethods VecType Num} `{!VectorCollab VecType Num Vector}.
Abbreviation VecNum := (option Num).
Implicit Types (mat : @Matrix VecType Num) (el : VecNum).

(** *** What multiplication can return *)

Lemma Mul_zero_or_panic (m1 m2 : @Matrix VecType Num) :
  Mul m1 m2 = Ret Matrix_zero \/ panics (Mul m1 m2).
Proof.
  destruct (decide (n m1 = m m2)) as [Hn | Hn];
    [| left; apply Mul_incompatible; by left].
  destruct (decide (typ m1 = typ m2)) as [Ht | Ht];
    [| left; apply Mul_incompatible; by right].
  right. by apply Mul_compatible_never_returns.
Qed.

Lemma Mul_zero_zero : Mul (Matrix_zero : @Matrix VecType Num) Matrix_zero = Panic NilDereference.
Proof. rewrite Mul_checked by done. reflexivity. Qed.

Lemma bind_zero_or_panic (r1 r2 : result (@Matrix VecType Num)) :
  let r := (m1 ← r1; m2 ← r2; Mul m1 m2) in
  r = Ret Matrix_zero \/ panics r.
Proof.
  destruct r1 as [m1|p]; cbn; [| right; by exists p].
  destruct r2 as [m2|p]; cbn; [| right; by exists p].
  apply Mul_zero_or_panic.
Qed.

(** X7: whatever the matrices, [BatchMultiply] on a sequence of any length
    but one gives the zero value of [Matrix] or panics: it never returns a
    product. *)
Theorem BatchMultiply_zero_or_panic (args : list (@Matrix VecType Num)) :
  length args <> 1%nat ->
  BatchMultiply args = Ret Matrix_zero \/ panics (BatchMultiply args).
Proof.
  intros Hlen.
  destruct args as [|a [|b [|c rest]]]; [| done | |].
  - right. by exists IndexOutOfRange.
  - rewrite BatchMultiply_pair. apply Mul_zero_or_panic.
  - rewrite BatchMultiply_long by (simpl; lia). apply bind_zero_or_panic.
Qed.

(** X8: how a rejected pair travels through [BatchMultiply].  With three
    matrices of which the last two fail the check of [Mul], the zero value
    they give is rejected again by the final [Mul] (unless the first matrix
    has no column and the zero type) and comes out; with four matrices of
    which both halves fail the check, the final [Mul] receives two zero
    values, accepts them, and panics. *)
Theorem BatchMultiply_rejected_pairs (a b c d : @Matrix VecType Num) :
  (n b <> m c \/ typ b <> typ c ->
   n a <> 0 \/ typ a <> VecType_zero ->
   BatchMultiply [a; b; c] = Ret Matrix_zero) /\
  (n a <> m b \/ typ a <> typ b ->
   n c <> m d \/ typ c <> typ d ->
   BatchMultiply [a; b; c; d] = Panic NilDereference).
Proof.
  split.
  - intros Hbc Ha. rewrite BatchMultiply_long by (simpl; lia).
    change (length [a; b; c] / 2)%nat with 1%nat. cbn [take drop].
    rewrite BatchMultiply_single, BatchMultiply_pair, (Mul_incompatible b c Hbc).
    cbn [mbind result_bind]. by apply Mul_incompatible.
  - intros Hab Hcd. rewrite BatchMultiply_long by (simpl; lia).
    change (length [a; b; c; d] / 2)%nat with 2%nat. cbn [take drop].
    rewrite !BatchMultiply_pair, (Mul_incompatible a b Hab), (Mul_incompatible c d Hcd).
    cbn [mbind result_bind]. apply Mul_zero_zero.
Qed.

(** *** What the setter keeps *)

(** X9: a call of [SetElement] that returns leaves [m], [n], [typ] and the
    length of [dat] as they were, returns the receiver itself when it reports
    an error, and keeps the data well typed: if every element passed
    [checkType] for the matrix type before the call, every element does
    after it. *)
Theorem SetElement_keeps_invariants mat (i j : Z) el (p : ptr (@Matrix VecType Num))
    (e : error) :
  SetElement (Some mat) i j el = Ret (p, e) ->
  exists mat',
    p = Some mat' /\
    m mat' = m mat /\ n mat' = n mat /\ typ mat' = typ mat /\
    length (dat mat') = length (dat mat) /\
    (e <> None -> mat' = mat) /\
    (Forall (fun x => checkType (typ mat) x = true) (dat mat) ->
     Forall (fun x => checkType (typ mat') x = true) (dat mat')).
Proof.
  intros Hset.
  destruct (Z.lt_ge_cases i (m mat)) as [Hi | Hi].
  { rewrite SetElement_rejected in Hset by (by left).
    injection Hset as <- <-. by exists mat. }
  destruct (Z.lt_ge_cases j (n mat)) as [Hj | Hj].
  { rewrite SetElement_rejected in Hset by (by right).
    injection Hset as <- <-. by exists mat. }
  rewrite SetElement_passed in Hset by done.
  destruct (checkType (typ mat) el) eqn:Hel.
  - unfold index_set in Hset.
    destruct (_ && _); [| discriminate]. cbn in Hset.
    injection Hset as <- <-. eexists. split; [reflexivity |].
    cbn. rewrite length_insert. repeat split; try done.
    intros Hall. by apply Forall_insert.
  - injection Hset as <- <-. by exists mat.
Qed.

Lemma index_set_empty {A} (i : Z) (x : A) : index_set [] i x = Panic IndexOutOfRange.
Proof.
  unfold index_set. change (len []) with 0.
  destruct (Z.leb_spec 0 i), (Z.ltb_spec i 0); try reflexivity; lia.
Qed.

(** X10: a matrix made by [NewMatrix] has the given shape and type and no
    data, whatever the shape; no call of [SetElement] on it stores anything:
    the call panics on the write or returns an error and the matrix as it
    was. *)
Theorem NewMatrix_cannot_be_filled (m' n' : Z) (typ' : VecType) (i j : Z) el :
  exists mat,
    NewMatrix m' n' typ' = Ret (Some mat) /\
    m mat = m' /\ n mat = n' /\ typ mat = typ' /\ dat mat = [] /\
    (SetElement (Some mat) i j el = Panic IndexOutOfRange \/
     exists msg, SetElement (Some mat) i j el = Ret (Some mat, errors_New msg)).
Proof.
  set (mat := ({| m := m'; n := n'; typ := typ'; dat := [] |} : @Matrix VecType Num)).
  exists mat. repeat split.
  destruct (Z.lt_ge_cases i m') as [Hi | Hi].
  { right. eexists. apply SetElement_rejected. by left. }
  destruct (Z.lt_ge_cases j n') as [Hj | Hj].
  { right. eexists. apply SetElement_rejected. by right. }
  rewrite (SetElement_passed mat) by done.
  destruct (checkType _ _); [left | right; by eexists].
  cbn [dat mat]. by rewrite index_set_empty.
Qed.

(** *** Reduction to a scalar or a vector *)

(** X11: on a matrix with [len(dat) = m*n], [ToScalar] does not panic: it
    returns nil when the matrix is not 1 x 1, and the only element of [dat]
    when it is. *)
Theorem ToScalar_on_invariant mat :
  len (dat mat) = m mat * n mat ->
  ((m mat <> 1 \/ n mat <> 1) /\ ToScalar mat = Ret None) \/
  (exists v, m mat = 1 /\ n mat = 1 /\ dat mat = [v] /\ ToScalar mat = Ret v).
Proof.
  intros Hlen. unfold ToScalar.
  destruct (decide (m mat = 1)) as [Hm | Hm].
  - destruct (decide (n mat = 1)) as [Hn | Hn].
    + right. rewrite Hm, Hn in Hlen. unfold len in Hlen.
      destruct (dat mat) as [|v [|w rest]] eqn:Hd; simpl in Hlen; try lia.
      exists v. rewrite !bool_decide_eq_false_2 by tauto. by repeat split.
    + left. split; [by right |].
      rewrite (bool_decide_eq_true_2 (n mat <> 1)), orb_true_r by done. done.
  - left. split; [by left |].
    by rewrite (bool_decide_eq_true_2 (m mat <> 1)) by done.
Qed.

Lemma Add_result_shape (m1 m2 m3 : @Matrix VecType Num) :
  Add m1 m2 = Ret m3 -> m m3 = 0 /\ n m3 = 0.
Proof.
  intros Hadd.
  destruct (decide (typ m1 = typ m2)) as [Ht | Ht]; cycle 1.
  { destruct (Add_Sub_mismatch m1 m2 (or_introl Ht)) as [H _].
    rewrite H in Hadd. by injection Hadd as <-. }
  destruct (decide (length (dat m1) = length (dat m2))) as [Hl | Hl]; cycle 1.
  { assert (Hlen : len (dat m1) <> len (dat m2)) by (unfold len; lia).
    destruct (Add_Sub_mismatch m1 m2 (or_intror Hlen)) as [H _].
    rewrite H in Hadd. by injection Hadd as <-. }
  rewrite Add_matched in Hadd by done.
  destruct (pairwise _ _ _); cbn in Hadd; [| discriminate].
  by injection Hadd as <-.
Qed.

Lemma Sub_result_shape (m1 m2 m3 : @Matrix VecType Num) :
  Sub m1 m2 = Ret m3 -> m m3 = 0 /\ n m3 = 0.
Proof.
  intros Hsub.
  destruct (decide (typ m1 = typ m2)) as [Ht | Ht]; cycle 1.
  { destruct (Add_Sub_mismatch m1 m2 (or_introl Ht)) as [_ H].
    rewrite H in Hsub. by injection Hsub as <-. }
  destruct (decide (length (dat m1) = length (dat m2))) as [Hl | Hl]; cycle 1.
  { assert (Hlen : len (dat m1) <> len (dat m2)) by (unfold len; lia).
    destruct (Add_Sub_mismatch m1 m2 (or_intror Hlen)) as [_ H].
    rewrite H in Hsub. by injection Hsub as <-. }
  rewrite Sub_matched in Hsub by done.
  destruct (pairwise _ _ _); cbn in Hsub; [| discriminate].
  by injection Hsub as <-.
Qed.

(** X12: no result of [Add] or [Sub] can be read back as a scalar or as a
    vector, whatever the operands were: [ToScalar] returns nil on it and
    [AsVector] the error for a matrix that is 1-dimensional in neither
    direction, without calling [VectorOf]. *)
Theorem Add_Sub_result_is_no_scalar_or_vector (m1 m2 m3 : @Matrix VecType Num) :
  Add m1 m2 = Ret m3 \/ Sub m1 m2 = Ret m3 ->
  ToScalar m3 = Ret None /\
  AsVector m3
    = Ret (Vector_zero, errors_New "Matrix is not 1-dimensional in either direction.").
Proof.
  intros H.
  assert (m m3 = 0 /\ n m3 = 0) as [Hm Hn].
  { destruct H; [by eapply Add_result_shape | by eapply Sub_result_shape]. }
  unfold ToScalar, AsVector. rewrite Hm, Hn. done.
Qed.

(** *** Commutativity of addition *)

Lemma pairwise_comm (op : Num -> VecNum -> result VecNum) (xs ys : list VecNum) :
  (forall x y, x ∈ xs -> y ∈ ys -> call op x y = call op y x) ->
  pairwise op xs ys = pairwise op ys xs.
Proof.
  revert ys. induction xs as [|x xs IH]; intros [|y ys] Hop; try reflexivity.
  cbn [pairwise]. rewrite (Hop x y) by apply list_elem_of_here.
  rewrite IH; [reflexivity |].
  intros x' y' Hx Hy. apply Hop; by apply list_elem_of_further.
Qed.

(** X13: when the [add] of the elements gives the same on the elements of
    the two matrices in either order, [Add] gives the same on the two
    matrices in either order, mismatches and panics included. *)
Theorem Add_commutes (m1 m2 : @Matrix VecType Num) :
  (forall x y, x ∈ dat m1 -> y ∈ dat m2 -> call add x y = call add y x) ->
  Add m1 m2 = Add m2 m1.
Proof.
  intros Hop.
  destruct (decide (typ m1 = typ m2)) as [Ht | Ht]; cycle 1.
  { assert (Ht' : typ m2 <> typ m1) by congruence.
    destruct (Add_Sub_mismatch m1 m2 (or_introl Ht)) as [-> _].
    by destruct (Add_Sub_mismatch m2 m1 (or_introl Ht')) as [-> _]. }
  destruct (decide (length (dat m1) = length (dat m2))) as [Hl | Hl]; cycle 1.
  { assert (Hlen : len (dat m1) <> len (dat m2)) by (unfold len; lia).
    assert (Hlen' : len (dat m2) <> len (dat m1)) by congruence.
    destruct (Add_Sub_mismatch m1 m2 (or_intror Hlen)) as [-> _].
    by destruct (Add_Sub_mismatch m2 m1 (or_intror Hlen')) as [-> _]. }
  rewrite !Add_matched by done.
  rewrite (pairwise_comm add _ _ Hop), Ht. reflexivity.
Qed.

End EngineUse.

(** ** The further properties on integer matrices *)

Lemma BatchMultiply_zero_or_panic_witness :
  BatchMultiply [shear; row_1x2] = Ret Matrix_zero \/
  panics (BatchMultiply [shear; row_1x2]).
Proof. apply (BatchMultiply_zero_or_panic [shear; row_1x2]). discriminate. Defined.

Lemma BatchMultiply_rejected_pairs_witness :
  BatchMultiply [shear; shear; row_1x2] = Ret Matrix_zero /\
  BatchMultiply [shear; row_1x2; shear; row_1x2] = Panic NilDereference.
Proof.
  split.
  - apply (BatchMultiply_rejected_pairs shear shear row_1x2 shear); left; discriminate.
  - apply (BatchMultiply_rejected_pairs shear row_1x2 shear row_1x2); left; discriminate.
Defined.

Lemma SetElement_keeps_invariants_witness :
  exists mat' : IntMatrix,
    Some (int_matrix 2 1 [7; 2]) = Some mat' /\
    m mat' = 2 /\ n mat' = 1 /\ typ mat' = INTEGER /\
    length (dat mat') = 2%nat /\
    ((None : error) <> None -> mat' = column_2x1) /\
    (Forall (fun x => checkType INTEGER x = true) (dat column_2x1) ->
     Forall (fun x => checkType (typ mat') x = true) (dat mat')).
Proof.
  apply (SetElement_keeps_invariants column_2x1 2 max_int (Some 7) _ None).
  vm_compute. reflexivity.
Defined.

Lemma ToScalar_on_invariant_witness :
  ((m scalar_7 <> 1 \/ n scalar_7 <> 1) /\ ToScalar scalar_7 = Ret None) \/
  (exists v, m scalar_7 = 1 /\ n scalar_7 = 1 /\ dat scalar_7 = [v] /\
             ToScalar scalar_7 = Ret v).
Proof. apply (ToScalar_on_invariant scalar_7). reflexivity. Defined.

Lemma Add_Sub_result_is_no_scalar_or_vector_witness :
  ToScalar (int_matrix 0 0 [14]) = Ret None /\
  AsVector (int_matrix 0 0 [14])
    = Ret ((NOTYPE, []) : IntType * list (option Z),
           errors_New "Matrix is not 1-dimensional in either direction.").
Proof.
  apply (Add_Sub_result_is_no_scalar_or_vector (VectorCollab0 := Int_vector)
           scalar_7 scalar_7 (int_matrix 0 0 [14])).
  left. vm_compute. reflexivity.
Defined.

Lemma Add_commutes_witness :
  Add shear (int_matrix 1 4 [5; 6; 7; 8]) = Add (int_matrix 1 4 [5; 6; 7; 8]) shear.
Proof.
  apply (Add_commutes shear (int_matrix 1 4 [5; 6; 7; 8])).
  intros x y Hx Hy.
  apply list_elem_of_fmap in Hx as (a & -> & _).
  apply list_elem_of_fmap in Hy as (b & -> & _).
  cbn. by rewrite Z.add_comm.
Defined.
